(** * py-burger-recipe: descriptor-based attribute validation

    A shallow embedding of [app/main.py] and the properties of its
    validating descriptors ([Validator], [Number], [OneOf]) and of the
    record [BurgerRecipe] that uses them.

    Python objects are modelled by an inductive [value]; an instance is
    its [__dict__], a finite map from attribute names to values; a
    method that may raise and may mutate the instance is a function from
    the instance to an outcome and the instance afterwards. *)

From Stdlib Require Import ZArith Ascii String DecimalString.
From stdpp Require Import base option list strings gmap.

#[local] Open Scope string_scope.
#[local] Open Scope Z_scope.
#[local] Open Scope list_scope.

(** ** Values *)

(** The values a caller can hand to a descriptor ([value: Any]).
    [VBool] is kept apart from [VInt] because Python's [bool] is a
    subclass of [int]: it passes [isinstance(value, int)] and compares as
    0 or 1.  [VOther shown] is an object of any other built-in type (a
    float, a list, ...) with the default equality; [shown] is what
    [str()] prints for it. *)
Inductive value : Type :=
| VInt (n : Z)
| VBool (b : bool)
| VStr (s : string)
| VNone
| VOther (shown : string).

#[global] Instance value_eq_dec : EqDecision value.
Proof. solve_decision. Defined.

(** [isinstance(value, int)] *)
Definition isinstance_int (v : value) : bool :=
  match v with
  | VInt _ | VBool _ => true
  | _ => false
  end.

(** The number an [int] instance compares as; [None] for other types. *)
Definition int_value (v : value) : option Z :=
  match v with
  | VInt n => Some n
  | VBool b => Some (Z.b2z b)
  | _ => None
  end.

(** [a == b] for a value [a] and a [str] [b]: only a [str] with the same
    characters is equal to it. *)
Definition py_eq_str (a : value) (b : string) : bool :=
  match a with
  | VStr s => String.eqb s b
  | _ => false
  end.

(** [value in options] for a tuple [options] of [str]. *)
Definition py_in (v : value) (options : list string) : bool :=
  existsb (py_eq_str v) options.

(** ** Formatting, as the f-strings of the source do it *)

(** [str(n)] for an [int]. *)
Definition str_int (n : Z) : string :=
  NilZero.string_of_int (Z.to_int n).

Definition str_bool (b : bool) : string :=
  if b then "True" else "False".

(** [str(value)], what [{value}] interpolates. *)
Definition py_str (v : value) : string :=
  match v with
  | VInt n => str_int n
  | VBool b => str_bool b
  | VStr s => s
  | VNone => "None"
  | VOther shown => shown
  end.

Definition has_char (c : ascii) (s : string) : bool :=
  existsb (Ascii.eqb c) (list_ascii_of_string s).

Definition hex_digit (n : N) : ascii :=
  if (n <? 10)%N then ascii_of_N (48 + n) else ascii_of_N (87 + n).

(** One character of [repr(s)], inside the quote [q].  Bytes above 127
    are parts of a printable non-ASCII character and are kept. *)
Definition repr_char (q c : ascii) : string :=
  let n := N_of_ascii c in
  if Ascii.eqb c q || Ascii.eqb c "\" then String "\" (String c "")
  else if (n =? 9)%N then "\t"
  else if (n =? 10)%N then "\n"
  else if (n =? 13)%N then "\r"
  else if (n <? 32)%N || (n =? 127)%N
       then String "\" (String "x" (String (hex_digit (n / 16))
                                     (String (hex_digit (n mod 16)) "")))
  else String c "".

(** [repr(s)] for a [str]: single quotes, unless the text has a single
    quote and no double quote. *)
Definition repr_str (s : string) : string :=
  let q : ascii := if has_char "'" s && negb (has_char "034" s)
                   then "034"%char else "'"%char in
  String q (String.concat "" (map (repr_char q) (list_ascii_of_string s)))
    +:+ String q "".

(** [str(options)] for a tuple of [str]. *)
Definition str_tuple (options : list string) : string :=
  match options with
  | [] => "()"
  | [o] => "(" +:+ repr_str o +:+ ",)"
  | _ => "(" +:+ String.concat ", " (map repr_str options) +:+ ")"
  end.

(** ** Exceptions and outcomes *)

Inductive exn_class : Type :=
| TypeError
| ValueError
| AttributeError
| NotImplementedError.

#[global] Instance exn_class_eq_dec : EqDecision exn_class.
Proof. solve_decision. Defined.

Record exn : Type := Exn { exn_type : exn_class; exn_msg : string }.

Inductive result (A : Type) : Type :=
| Ok (a : A)
| Raise (e : exn).
Arguments Ok {A} a.
Arguments Raise {A} e.

(** ** Descriptors and instances *)

(** The three classes of the module; a [Number] carries [min_value] and
    [max_value], a [OneOf] its [options]. *)
Inductive klass : Type :=
| IsValidator
| IsNumber (min_value max_value : Z)
| IsOneOf (options : list string).

(** A descriptor object.  [protected_name] is an annotation without a
    value in the class body, so the attribute does not exist until
    [__set_name__] has run. *)
Record descriptor : Type := Descriptor {
  cls : klass;
  protected_name : option string
}.

Definition class_name (d : descriptor) : string :=
  match cls d with
  | IsValidator => "Validator"
  | IsNumber _ _ => "Number"
  | IsOneOf _ => "OneOf"
  end.

(** An instance of the owning class: the name of its type and its
    [__dict__].  No class attribute of the owner has the name of a backing
    location, so [getattr] and [setattr] on such a name go to the
    [__dict__]. *)
Record object : Type := Object {
  type_name : string;
  attrs : gmap string value
}.

(** A method body: it reads and updates one instance and returns or
    raises.  What was stored before a raise stays stored. *)
Definition M (A : Type) : Type := object -> result A * object.

Definition ret {A} (a : A) : M A := fun o => (Ok a, o).

Definition bind {A B} (c : M A) (k : A -> M B) : M B :=
  fun o => match c o with
           | (Ok a, o') => k a o'
           | (Raise e, o') => (Raise e, o')
           end.

Definition lift {A} (r : result A) : M A := fun o => (r, o).

Notation "x <- c ;; k" := (bind c (fun x => k))
  (at level 100, c at next level, right associativity).
Notation "c ;; k" := (bind c (fun _ => k))
  (at level 100, right associativity).

Definition no_attribute (owner name : string) : exn :=
  Exn AttributeError
      ("'" +:+ owner +:+ "' object has no attribute '" +:+ name +:+ "'").

(** [getattr(instance, name)] *)
Definition getattr (instance : object) (name : string) : result value :=
  match attrs instance !! name with
  | Some v => Ok v
  | None => Raise (no_attribute (type_name instance) name)
  end.

(** [setattr(instance, name, value)] *)
Definition setattr (name : string) (v : value) : M unit :=
  fun instance =>
    (Ok tt, Object (type_name instance) (<[name := v]> (attrs instance))).

(** [self.protected_name] *)
Definition get_protected_name (self : descriptor) : result string :=
  match protected_name self with
  | Some name => Ok name
  | None => Raise (no_attribute (class_name self) "protected_name")
  end.

(** ** class Number *)
Module Number.

Definition __init__ (min_value max_value : Z) : descriptor :=
  Descriptor (IsNumber min_value max_value) None.

Definition validate (min_value max_value : Z) (v : value) : result unit :=
  if negb (isinstance_int v) then
    Raise (Exn TypeError "Quantity should be integer.")
  else
    let n := default 0 (int_value v) in
    if negb ((min_value <=? n) && (n <=? max_value)) then
      Raise (Exn ValueError
               ("Quantity should not be less than " +:+ str_int min_value
                +:+ " and greater than " +:+ str_int max_value +:+ "."))
    else Ok tt.

End Number.

(** ** class OneOf *)
Module OneOf.

Definition __init__ (options : list string) : descriptor :=
  Descriptor (IsOneOf options) None.

Definition validate (options : list string) (v : value) : result unit :=
  if negb (py_in v options) then
    Raise (Exn ValueError
             ("Expected " +:+ py_str v +:+ " to be one of "
              +:+ str_tuple options +:+ "."))
  else Ok tt.

End OneOf.

(** ** class Validator *)
Module Validator.

Definition __set_name__ (self : descriptor) (name : string) : descriptor :=
  Descriptor (cls self) (Some ("_" +:+ name)).

(** The method of the base class. *)
Definition validate (v : value) : result unit :=
  Raise (Exn NotImplementedError "Subclasses must implement validate().").

(** [self.validate(value)]: the method of the class of [self]. *)
Definition self_validate (self : descriptor) (v : value) : result unit :=
  match cls self with
  | IsValidator => validate v
  | IsNumber min_value max_value => Number.validate min_value max_value v
  | IsOneOf options => OneOf.validate options v
  end.

(** What [__get__] returns: the descriptor itself or a stored value. *)
Inductive got : Type :=
| GotSelf (d : descriptor)
| GotValue (v : value).

(** The last definition of [__get__] in the class body; it replaces the
    two decorated with [@overload]. *)
Definition __get__ (self : descriptor) (instance : option object)
  : result got :=
  match instance with
  | None => Ok (GotSelf self)
  | Some o =>
      match get_protected_name self with
      | Raise e => Raise e
      | Ok name =>
          match getattr o name with
          | Ok v => Ok (GotValue v)
          | Raise e => Raise e
          end
      end
  end.

Definition __set__ (self : descriptor) (v : value) : M unit :=
  lift (self_validate self v) ;;
  name <- lift (get_protected_name self) ;;
  setattr name v.

End Validator.

(** ** class BurgerRecipe *)
Module BurgerRecipe.

(** The class body: each descriptor is created and then bound to its
    attribute name by [__set_name__]. *)
Definition buns : descriptor :=
  Validator.__set_name__ (Number.__init__ 2 3) "buns".
Definition cheese : descriptor :=
  Validator.__set_name__ (Number.__init__ 0 2) "cheese".
Definition tomatoes : descriptor :=
  Validator.__set_name__ (Number.__init__ 0 3) "tomatoes".
Definition cutlets : descriptor :=
  Validator.__set_name__ (Number.__init__ 1 3) "cutlets".
Definition eggs : descriptor :=
  Validator.__set_name__ (Number.__init__ 0 2) "eggs".
Definition sauce : descriptor :=
  Validator.__set_name__ (OneOf.__init__ ["ketchup"; "mayo"; "burger"])
                         "sauce".

(** The instance [__new__] hands to [__init__]. *)
Definition fresh : object := Object "BurgerRecipe" ∅.

Definition __init__ (a_buns a_cheese a_tomatoes a_cutlets a_eggs a_sauce
                     : value) : M unit :=
  Validator.__set__ buns a_buns ;;
  Validator.__set__ cheese a_cheese ;;
  Validator.__set__ tomatoes a_tomatoes ;;
  Validator.__set__ cutlets a_cutlets ;;
  Validator.__set__ eggs a_eggs ;;
  Validator.__set__ sauce a_sauce.

(** [BurgerRecipe(...)]: the new instance, or the exception raised by
    [__init__]. *)
Definition new (a_buns a_cheese a_tomatoes a_cutlets a_eggs a_sauce
                : value) : result object :=
  match __init__ a_buns a_cheese a_tomatoes a_cutlets a_eggs a_sauce fresh
  with
  | (Ok _, o) => Ok o
  | (Raise e, _) => Raise e
  end.

End BurgerRecipe.

(** * Vocabulary of the properties *)



(** The text of the [ValueError] of [Number.validate]. *)
Definition range_message (min_value max_value : Z) : string :=
  "Quantity should not be less than " +:+ str_int min_value
  +:+ " and greater than " +:+ str_int max_value +:+ ".".

(** [v] is one of [options]: it is equal to an element of the tuple. *)
Definition member (v : value) (options : list string) : Prop :=
  exists s, v = VStr s /\ s ∈ options.


(** The instance after [setattr(instance, p, v)]. *)
Definition stored (o : object) (p : string) (v : value) : object :=
  Object (type_name o) (<[p := v]> (attrs o)).

(** The instance after a sequence of assignments, each through its
    descriptor, whether they raise or not. *)
Definition set_all (ws : list (descriptor * value)) (o : object) : object :=
  foldl (fun o' w => (Validator.__set__ w.1 w.2 o').2) o ws.

(** A recipe whose [cutlets] field holds 2 and nothing else yet. *)
Definition two_cutlets : object :=
  Object "BurgerRecipe" (<["_cutlets" := VInt 2]> ∅).

(** The six descriptors of the class body, in the order of the fields. *)
Definition recipe_fields : list descriptor :=
  [BurgerRecipe.buns; BurgerRecipe.cheese; BurgerRecipe.tomatoes;
   BurgerRecipe.cutlets; BurgerRecipe.eggs; BurgerRecipe.sauce].

(** The assignments of [__init__], in its order. *)
Definition field_checks (a_buns a_cheese a_tomatoes a_cutlets a_eggs a_sauce
                         : value) : list (descriptor * value) :=
  [(BurgerRecipe.buns, a_buns); (BurgerRecipe.cheese, a_cheese);
   (BurgerRecipe.tomatoes, a_tomatoes); (BurgerRecipe.cutlets, a_cutlets);
   (BurgerRecipe.eggs, a_eggs); (BurgerRecipe.sauce, a_sauce)].

(** The failure of the first assignment, in the order of the list, whose
    check fails. *)
Fixpoint first_failure (ws : list (descriptor * value)) : option exn :=
  match ws with
  | [] => None
  | w :: ws' =>
      match Validator.self_validate w.1 w.2 with
      | Raise e => Some e
      | Ok _ => first_failure ws'
      end
  end.

(** The assignments of a list, one after the other, up to the first
    that raises. *)
Fixpoint assign_each (ws : list (descriptor * value)) : M unit :=
  match ws with
  | [] => ret tt
  | w :: ws' => Validator.__set__ w.1 w.2 ;; assign_each ws'
  end.

(** The check of the rule accepts the value of the assignment. *)
Definition passes (w : descriptor * value) : Prop :=
  Validator.self_validate w.1 w.2 = Ok tt.

(** The descriptor of the assignment has been given its name. *)
Definition bound (w : descriptor * value) : Prop :=
  is_Some (protected_name w.1).

(** The descriptor of every assignment is one of the six fields. *)
Definition through_fields (ws : list (descriptor * value)) : Prop :=
  Forall (fun w => w.1 ∈ recipe_fields) ws.

(** Whatever the backing location of a field of the recipe holds
    satisfies the rule of that field. *)
Definition valid_recipe (o : object) : Prop :=
  forall f p v, f ∈ recipe_fields -> protected_name f = Some p ->
                attrs o !! p = Some v -> Validator.self_validate f v = Ok tt.

(** The failure of the base class. *)
Definition not_implemented : exn :=
  Exn NotImplementedError "Subclasses must implement validate().".


(** * Properties of the rules *)






Example str_tuple_sauces :
  str_tuple ["ketchup"; "mayo"; "burger"] = "('ketchup', 'mayo', 'burger')".
Proof. reflexivity. Qed.

Example str_int_examples :
  (str_int 0, str_int (-5), str_int 123) = ("0", "-5", "123").
Proof. reflexivity. Qed.

Section NumberRule.

Variables min_value max_value : Z.

Lemma int_value_isinstance (v : value) (n : Z) :
  int_value v = Some n -> isinstance_int v = true.
Proof. by destruct v. Qed.

Lemma isinstance_int_value (v : value) :
  isinstance_int v = true -> exists n, int_value v = Some n.
Proof. destruct v; simpl; eauto; discriminate. Qed.

Lemma number_not_int (v : value) :
  isinstance_int v = false ->
  Number.validate min_value max_value v
  = Raise (Exn TypeError "Quantity should be integer.").
Proof. intros H. unfold Number.validate. by rewrite H. Qed.

Lemma number_in_range (v : value) (n : Z) :
  int_value v = Some n -> min_value <= n <= max_value ->
  Number.validate min_value max_value v = Ok tt.
Proof.
  intros Hv Hn. unfold Number.validate.
  rewrite (int_value_isinstance v n Hv), Hv. simpl.
  destruct (Z.leb_spec min_value n), (Z.leb_spec n max_value); simpl; [done | lia..].
Qed.

Lemma number_out_of_range (v : value) (n : Z) :
  int_value v = Some n -> n < min_value \/ max_value < n ->
  Number.validate min_value max_value v
  = Raise (Exn ValueError (range_message min_value max_value)).
Proof.
  intros Hv Hn. unfold Number.validate.
  rewrite (int_value_isinstance v n Hv), Hv. simpl.
  destruct (Z.leb_spec min_value n), (Z.leb_spec n max_value); simpl; [lia | done..].
Qed.

End NumberRule.

(** C1.  [Number(min, max).validate(v)] returns for every [int] instance
    [v] with [min <= v <= max]; raises [ValueError] (the kind OutOfRange)
    for every [int] instance with [v < min] or [v > max]; and raises
    [TypeError] (the kind TypeMismatch) for every [v] that is not an
    instance of [int]. *)
Theorem number_validate_contract (min_value max_value : Z) (v : value) :
  (forall n, int_value v = Some n -> min_value <= n <= max_value ->
     Number.validate min_value max_value v = Ok tt) /\
  (forall n, int_value v = Some n -> n < min_value \/ n > max_value ->
     exists e, Number.validate min_value max_value v = Raise e
               /\ exn_type e = ValueError) /\
  (isinstance_int v = false ->
     exists e, Number.validate min_value max_value v = Raise e
               /\ exn_type e = TypeError).
Proof.
  split; [|split].
  - intros n Hv Hn. by apply number_in_range with n.
  - intros n Hv Hn. eexists. split.
    + apply number_out_of_range with n; [done | lia].
    + done.
  - intros Hv. eexists. split; [by apply number_not_int | done].
Qed.

Lemma number_validate_contract_witness :
  Number.validate 2 3 (VInt 3) = Ok tt
  /\ (exists e, Number.validate 2 3 (VInt 4) = Raise e
                /\ exn_type e = ValueError)
  /\ (exists e, Number.validate 2 3 (VStr "two") = Raise e
                /\ exn_type e = TypeError).
Proof.
  split; [|split].
  - apply (proj1 (number_validate_contract 2 3 (VInt 3)) 3); [reflexivity | lia].
  - apply (proj1 (proj2 (number_validate_contract 2 3 (VInt 4))) 4);
      [reflexivity | lia].
  - apply (proj2 (proj2 (number_validate_contract 2 3 (VStr "two")))).
    reflexivity.
Defined.

(** C6, as the claim states it, fails: [True] is an instance of [int]
    and lies in the range of [cheese], so it is accepted. *)
Lemma bool_is_accepted :
  ~ (exists e, Number.validate 0 2 (VBool true) = Raise e
               /\ exn_type e = TypeError).
Proof. intros (e & H & _). vm_compute in H. discriminate. Qed.

(** C6, amended.  A boolean is checked as the integer it equals
    ([False] as 0, [True] as 1): it is accepted when that integer is in
    range, rejected with [ValueError] otherwise, and never rejected with
    [TypeError]. *)
Theorem number_validate_bool (min_value max_value : Z) (b : bool) :
  Number.validate min_value max_value (VBool b)
  = Number.validate min_value max_value (VInt (Z.b2z b))
  /\ (min_value <= Z.b2z b <= max_value ->
      Number.validate min_value max_value (VBool b) = Ok tt)
  /\ (Z.b2z b < min_value \/ Z.b2z b > max_value ->
      exists e, Number.validate min_value max_value (VBool b) = Raise e
                /\ exn_type e = ValueError)
  /\ (forall e, Number.validate min_value max_value (VBool b) = Raise e ->
      exn_type e <> TypeError).
Proof.
  split; [reflexivity|]. split; [|split].
  - intros H. by apply number_in_range with (Z.b2z b).
  - intros H. eexists. split.
    + apply number_out_of_range with (Z.b2z b); [done | lia].
    + reflexivity.
  - intros e. unfold Number.validate. simpl.
    destruct (negb _); [|discriminate]. by intros [= <-].
Qed.

Lemma number_validate_bool_witness :
  Number.validate 1 3 (VBool true) = Ok tt
  /\ (exists e, Number.validate 1 3 (VBool false) = Raise e
                /\ exn_type e = ValueError).
Proof.
  split.
  - apply (proj1 (proj2 (number_validate_bool 1 3 true))). simpl. lia.
  - apply (proj1 (proj2 (proj2 (number_validate_bool 1 3 false)))).
    simpl. lia.
Defined.




Lemma py_in_member (v : value) (options : list string) :
  py_in v options = true <-> member v options.
Proof.
  unfold py_in, member. rewrite existsb_exists. split.
  - intros (s & Hin & Heq). destruct v; try discriminate.
    apply String.eqb_eq in Heq as ->.
    exists s. split; [done | by apply list_elem_of_In].
  - intros (s & -> & Hin). exists s. split.
    + by apply list_elem_of_In.
    + apply String.eqb_refl.
Qed.

Lemma oneof_ok_iff (options : list string) (v : value) :
  OneOf.validate options v = Ok tt <-> py_in v options = true.
Proof.
  unfold OneOf.validate. destruct (py_in v options); simpl; split; done.
Qed.


(** C2.  [OneOf(options).validate(v)] returns if and only if [v] is
    equal to one of [options]; for every other [v] it raises
    [ValueError] (the kind NotInSet); and whether it returns depends on
    the elements of [options] only, not on their order. *)
Theorem oneof_validate_contract (options : list string) (v : value) :
  (OneOf.validate options v = Ok tt <-> member v options) /\
  (~ member v options ->
     exists e, OneOf.validate options v = Raise e
               /\ exn_type e = ValueError) /\
  (forall options' : list string,
     (forall s, s ∈ options <-> s ∈ options') ->
     (OneOf.validate options v = Ok tt
      <-> OneOf.validate options' v = Ok tt)).
Proof.
  split; [|split].
  - by rewrite oneof_ok_iff, py_in_member.
  - intros Hn. rewrite <- py_in_member in Hn.
    unfold OneOf.validate. destruct (py_in v options); [done|].
    simpl. by eexists.
  - intros options' Hsame. rewrite !oneof_ok_iff, !py_in_member.
    unfold member. split; intros (s & -> & Hin); exists s;
      (split; [done | by apply Hsame]).
Qed.

Lemma oneof_validate_contract_witness :
  (exists e, OneOf.validate ["ketchup"; "mayo"; "burger"] (VStr "mustard")
             = Raise e /\ exn_type e = ValueError)
  /\ (OneOf.validate ["ketchup"; "mayo"; "burger"] (VStr "mayo") = Ok tt
      <-> OneOf.validate ["burger"; "mayo"; "ketchup"] (VStr "mayo") = Ok tt).
Proof.
  split.
  - apply (proj1 (proj2 (oneof_validate_contract
                           ["ketchup"; "mayo"; "burger"] (VStr "mustard")))).
    intros H. apply py_in_member in H. vm_compute in H. discriminate.
  - apply (proj2 (proj2 (oneof_validate_contract
                           ["ketchup"; "mayo"; "burger"] (VStr "mayo")))).
    intros s. rewrite !list_elem_of_In. simpl. tauto.
Defined.




(** * Properties of the descriptor protocol *)

Section Descriptor.

Variable d : descriptor.

Lemma set_raise (v : value) (o : object) (e : exn) :
  Validator.self_validate d v = Raise e ->
  Validator.__set__ d v o = (Raise e, o).
Proof. intros H. unfold Validator.__set__, bind, lift. by rewrite H. Qed.

Lemma set_ok (v : value) (o : object) (p : string) :
  Validator.self_validate d v = Ok tt -> protected_name d = Some p ->
  Validator.__set__ d v o = (Ok tt, stored o p v).
Proof.
  intros H Hp. unfold Validator.__set__, bind, lift, get_protected_name.
  by rewrite H, Hp.
Qed.

Lemma set_unbound (v : value) (o : object) :
  Validator.self_validate d v = Ok tt -> protected_name d = None ->
  Validator.__set__ d v o
  = (Raise (no_attribute (class_name d) "protected_name"), o).
Proof.
  intros H Hp. unfold Validator.__set__, bind, lift, get_protected_name.
  by rewrite H, Hp.
Qed.

(** The three ways a [__set__] can end. *)
Lemma set_cases (v : value) (o : object) :
  (exists e, Validator.__set__ d v o = (Raise e, o)) \/
  (exists p, protected_name d = Some p
             /\ Validator.self_validate d v = Ok tt
             /\ Validator.__set__ d v o = (Ok tt, stored o p v)).
Proof.
  destruct (Validator.self_validate d v) as [[]|e] eqn:Hv.
  - destruct (protected_name d) as [p|] eqn:Hp.
    + right. exists p. by rewrite (set_ok v o p).
    + left. eexists. by apply set_unbound.
  - left. exists e. by apply set_raise.
Qed.

Lemma set_fail_unchanged (v : value) (o : object) (e : exn) :
  (Validator.__set__ d v o).1 = Raise e -> (Validator.__set__ d v o).2 = o.
Proof.
  destruct (set_cases v o) as [[e' ->] | (p & _ & _ & ->)]; [done|].
  discriminate.
Qed.

Lemma get_stored (o : object) (p : string) (v : value) :
  protected_name d = Some p -> attrs o !! p = Some v ->
  Validator.__get__ d (Some o) = Ok (Validator.GotValue v).
Proof.
  intros Hp Hv. unfold Validator.__get__, get_protected_name, getattr.
  by rewrite Hp, Hv.
Qed.

Lemma get_missing (o : object) (p : string) :
  protected_name d = Some p -> attrs o !! p = None ->
  Validator.__get__ d (Some o) = Raise (no_attribute (type_name o) p).
Proof.
  intros Hp Hv. unfold Validator.__get__, get_protected_name, getattr.
  by rewrite Hp, Hv.
Qed.

(** A [__set__] through [d] leaves every other name of the [__dict__]
    as it was. *)
Lemma set_other_name (v : value) (o : object) (p q : string) :
  protected_name d = Some p -> q <> p ->
  attrs (Validator.__set__ d v o).2 !! q = attrs o !! q.
Proof.
  intros Hp Hq.
  destruct (set_cases v o) as [[e ->] | (p' & Hp' & _ & ->)]; [done|].
  simpl. rewrite lookup_insert_ne; [done | congruence].
Qed.

End Descriptor.

Lemma set_all_never_written (p : string) (ws : list (descriptor * value))
    (o : object) :
  attrs o !! p = None ->
  (forall w, w ∈ ws -> protected_name w.1 = Some p ->
             exists e, Validator.self_validate w.1 w.2 = Raise e) ->
  attrs (set_all ws o) !! p = None.
Proof.
  revert o. induction ws as [|[d v] ws IH]; intros o Ho Hws; [done|].
  simpl. apply IH.
  - destruct (set_cases d v o) as [[e ->] | (q & Hq & Hv & ->)]; [done|].
    simpl. destruct (decide (q = p)) as [->|Hne].
    + destruct (Hws (d, v)) as [e He]; [left | done |].
      simpl in He. congruence.
    + by rewrite lookup_insert_ne.
  - intros w Hw. apply Hws. by right.
Qed.

(** C4.  A [__set__] that raises stores nothing: the instance is left as
    it was, so a read of the field gives what it gave before; this is so
    in particular when the check of the rule fails, and the failure
    raised is then the failure of the rule.  When the check passes, the
    value is stored in the backing location, in place of any previous
    one, and a read gives it back. *)
Theorem set_all_or_nothing (d : descriptor) (o : object) (v : value) :
  (forall e, (Validator.__set__ d v o).1 = Raise e ->
     (Validator.__set__ d v o).2 = o
     /\ Validator.__get__ d (Some (Validator.__set__ d v o).2)
        = Validator.__get__ d (Some o)) /\
  (forall e, Validator.self_validate d v = Raise e ->
     Validator.__set__ d v o = (Raise e, o)) /\
  (forall p, protected_name d = Some p ->
     Validator.self_validate d v = Ok tt ->
     (Validator.__set__ d v o).1 = Ok tt
     /\ attrs (Validator.__set__ d v o).2 = <[p := v]> (attrs o)
     /\ Validator.__get__ d (Some (Validator.__set__ d v o).2)
        = Ok (Validator.GotValue v)).
Proof.
  split; [|split].
  - intros e He. apply set_fail_unchanged in He. by rewrite He.
  - intros e He. by apply set_raise.
  - intros p Hp Hv. rewrite (set_ok d v o p Hv Hp). simpl.
    repeat split. apply get_stored with p; [done|].
    simpl. apply lookup_insert_eq.
Qed.

Lemma set_all_or_nothing_witness :
  (Validator.__set__ BurgerRecipe.cutlets (VInt 4) two_cutlets
   = (Raise (Exn ValueError (range_message 1 3)), two_cutlets))
  /\ Validator.__get__ BurgerRecipe.cutlets
       (Some (Validator.__set__ BurgerRecipe.cutlets (VInt 4) two_cutlets).2)
     = Validator.__get__ BurgerRecipe.cutlets (Some two_cutlets)
  /\ Validator.__get__ BurgerRecipe.cutlets
       (Some (Validator.__set__ BurgerRecipe.cutlets (VInt 3) two_cutlets).2)
     = Ok (Validator.GotValue (VInt 3)).
Proof.
  split; [|split].
  - apply (proj1 (proj2 (set_all_or_nothing BurgerRecipe.cutlets two_cutlets
                           (VInt 4)))).
    reflexivity.
  - apply (proj1 (set_all_or_nothing BurgerRecipe.cutlets two_cutlets (VInt 4))
             (Exn ValueError (range_message 1 3))).
    reflexivity.
  - apply (proj2 (proj2 (set_all_or_nothing BurgerRecipe.cutlets two_cutlets
                           (VInt 3))) "_cutlets"); reflexivity.
Defined.

Example cutlets_still_two :
  Validator.__get__ BurgerRecipe.cutlets
    (Some (Validator.__set__ BurgerRecipe.cutlets (VInt 4) two_cutlets).2)
  = Ok (Validator.GotValue (VInt 2)).
Proof. reflexivity. Qed.

(** C8.  Read on the owning class ([instance] is [None]), [__get__]
    returns the descriptor itself.  Read on an instance, it returns the
    value stored in the backing location of that instance, and raises
    [AttributeError] (the kind AttributeNotSet) when nothing is stored
    there, which is the case as long as no assignment to the field has
    passed its check. *)
Theorem get_contract (d : descriptor) :
  Validator.__get__ d None = Ok (Validator.GotSelf d) /\
  (forall p o v, protected_name d = Some p -> attrs o !! p = Some v ->
     Validator.__get__ d (Some o) = Ok (Validator.GotValue v)) /\
  (forall p o, protected_name d = Some p -> attrs o !! p = None ->
     exists e, Validator.__get__ d (Some o) = Raise e
               /\ exn_type e = AttributeError) /\
  (forall p o ws, protected_name d = Some p -> attrs o !! p = None ->
     (forall w, w ∈ ws -> protected_name w.1 = Some p ->
                exists e, Validator.self_validate w.1 w.2 = Raise e) ->
     exists e, Validator.__get__ d (Some (set_all ws o)) = Raise e
               /\ exn_type e = AttributeError).
Proof.
  split; [reflexivity|]. split; [|split].
  - intros p o v Hp Hv. by apply get_stored with p.
  - intros p o Hp Hv. eexists. split; [by apply get_missing|done].
  - intros p o ws Hp Ho Hws. eexists. split.
    + apply get_missing; [done|]. by apply set_all_never_written.
    + reflexivity.
Qed.

Lemma get_contract_witness :
  Validator.__get__ BurgerRecipe.cutlets (Some two_cutlets)
  = Ok (Validator.GotValue (VInt 2))
  /\ (exists e, Validator.__get__ BurgerRecipe.buns (Some two_cutlets)
                = Raise e /\ exn_type e = AttributeError)
  /\ (exists e,
        Validator.__get__ BurgerRecipe.buns
          (Some (set_all [(BurgerRecipe.buns, VInt 1);
                          (BurgerRecipe.cheese, VInt 1);
                          (BurgerRecipe.buns, VStr "two")]
                         BurgerRecipe.fresh))
        = Raise e /\ exn_type e = AttributeError).
Proof.
  split; [|split].
  - apply (proj1 (proj2 (get_contract BurgerRecipe.cutlets)) "_cutlets");
      reflexivity.
  - apply (proj1 (proj2 (proj2 (get_contract BurgerRecipe.buns))) "_buns");
      reflexivity.
  - apply (proj2 (proj2 (proj2 (get_contract BurgerRecipe.buns))) "_buns");
      [reflexivity | reflexivity |].
    intros w Hw Hp. rewrite !elem_of_cons in Hw.
    destruct Hw as [-> | [-> | [-> | Hw]]].
    + by eexists.
    + discriminate Hp.
    + by eexists.
    + by apply elem_of_nil in Hw.
Defined.

Lemma set_type_name (d : descriptor) (v : value) (o : object) :
  type_name (Validator.__set__ d v o).2 = type_name o.
Proof.
  by destruct (set_cases d v o) as [[e ->] | (p & _ & _ & ->)].
Qed.

Lemma recipe_field_bound (f : descriptor) :
  f ∈ recipe_fields -> exists p, protected_name f = Some p.
Proof.
  unfold recipe_fields. rewrite !elem_of_cons, elem_of_nil.
  intros [-> | [-> | [-> | [-> | [-> | [-> | []]]]]]]; by eexists.
Qed.

Lemma recipe_field_names_inj (f g : descriptor) :
  f ∈ recipe_fields -> g ∈ recipe_fields ->
  protected_name f = protected_name g -> f = g.
Proof.
  unfold recipe_fields. rewrite !elem_of_cons, !elem_of_nil.
  intros [-> | [-> | [-> | [-> | [-> | [-> | []]]]]]]
         [-> | [-> | [-> | [-> | [-> | [-> | []]]]]]] H;
    first [reflexivity | discriminate H].
Qed.

Lemma underscore_inj (a b : string) : "_" +:+ a = "_" +:+ b -> a = b.
Proof. intros H. change (String "_" a = String "_" b) in H. by injection H. Qed.

(** C10.  [__set_name__] names the backing location "_" followed by the
    name of the field, so different field names give different backing
    locations, and those of the six fields of [BurgerRecipe] are pairwise
    distinct.  A [__set__] of one field, whether it returns or raises,
    leaves every other name of the instance as it was; so reading any of
    the five other fields gives the same as before. *)
Theorem set_frame :
  (forall d name,
     protected_name (Validator.__set_name__ d name) = Some ("_" +:+ name)) /\
  (forall d d' a b, a <> b ->
     protected_name (Validator.__set_name__ d a)
     <> protected_name (Validator.__set_name__ d' b)) /\
  NoDup (map protected_name recipe_fields) /\
  (forall d p q v o, protected_name d = Some p -> q <> p ->
     attrs (Validator.__set__ d v o).2 !! q = attrs o !! q) /\
  (forall f g v o, f ∈ recipe_fields -> g ∈ recipe_fields -> f <> g ->
     Validator.__get__ g (Some (Validator.__set__ f v o).2)
     = Validator.__get__ g (Some o)).
Proof.
  split; [reflexivity|]. split; [|split; [|split]].
  - intros d d' a b Hab H. apply Hab, underscore_inj. by apply (inj Some).
  - apply (bool_decide_unpack _). by vm_compute.
  - intros d p q v o. apply set_other_name.
  - intros f g v o Hf Hg Hfg.
    destruct (recipe_field_bound f Hf) as [p Hp].
    destruct (recipe_field_bound g Hg) as [q Hq].
    assert (q <> p) as Hqp.
    { intros ->. apply Hfg, recipe_field_names_inj; [done..|congruence]. }
    unfold Validator.__get__, get_protected_name, getattr.
    by rewrite Hq, (set_other_name f v o p q Hp Hqp), set_type_name.
Qed.

Lemma set_frame_witness :
  Validator.__get__ BurgerRecipe.cutlets
    (Some (Validator.__set__ BurgerRecipe.buns (VInt 3) two_cutlets).2)
  = Validator.__get__ BurgerRecipe.cutlets (Some two_cutlets).
Proof.
  apply (proj2 (proj2 (proj2 (proj2 set_frame)))).
  - unfold recipe_fields. rewrite !elem_of_cons. tauto.
  - unfold recipe_fields. rewrite !elem_of_cons. tauto.
  - discriminate.
Defined.

(** * Construction of a recipe *)

Lemma init_assign_each (a1 a2 a3 a4 a5 a6 : value) (o : object) :
  BurgerRecipe.__init__ a1 a2 a3 a4 a5 a6 o
  = assign_each (field_checks a1 a2 a3 a4 a5 a6) o.
Proof.
  unfold BurgerRecipe.__init__, field_checks, assign_each, bind, ret. simpl.
  repeat match goal with
         | |- context [Validator.__set__ ?d ?v ?o'] =>
             destruct (Validator.__set__ d v o') as [[[]|?] ?]
         end; reflexivity.
Qed.

Lemma field_checks_bound (a1 a2 a3 a4 a5 a6 : value) :
  Forall bound (field_checks a1 a2 a3 a4 a5 a6).
Proof. repeat constructor; by eexists. Qed.

Lemma assign_each_outcome (ws : list (descriptor * value)) (o : object) :
  Forall bound ws ->
  (assign_each ws o).1
  = match first_failure ws with Some e => Raise e | None => Ok tt end.
Proof.
  intros Hb. revert o. induction Hb as [|[d v] ws [p Hp] Hb IH]; intros o.
  - reflexivity.
  - simpl in *. unfold bind.
    destruct (Validator.self_validate d v) as [[]|e] eqn:Hv.
    + rewrite (set_ok d v o p Hv Hp). apply IH.
    + by rewrite (set_raise d v o e Hv).
Qed.



Lemma new_outcome (a1 a2 a3 a4 a5 a6 : value) :
  BurgerRecipe.new a1 a2 a3 a4 a5 a6
  = match (BurgerRecipe.__init__ a1 a2 a3 a4 a5 a6 BurgerRecipe.fresh).1 with
    | Ok _ => Ok (BurgerRecipe.__init__ a1 a2 a3 a4 a5 a6 BurgerRecipe.fresh).2
    | Raise e => Raise e
    end.
Proof.
  unfold BurgerRecipe.new.
  by destruct (BurgerRecipe.__init__ _ _ _ _ _ _ _) as [[[]|?] ?].
Qed.



(** When the six checks pass, the instance is returned and each field
    reads back the argument given for it. *)
Lemma new_reads_back (a1 a2 a3 a4 a5 a6 : value) :
  Forall passes (field_checks a1 a2 a3 a4 a5 a6) ->
  exists o, BurgerRecipe.new a1 a2 a3 a4 a5 a6 = Ok o
    /\ Validator.__get__ BurgerRecipe.buns (Some o)
       = Ok (Validator.GotValue a1)
    /\ Validator.__get__ BurgerRecipe.cheese (Some o)
       = Ok (Validator.GotValue a2)
    /\ Validator.__get__ BurgerRecipe.tomatoes (Some o)
       = Ok (Validator.GotValue a3)
    /\ Validator.__get__ BurgerRecipe.cutlets (Some o)
       = Ok (Validator.GotValue a4)
    /\ Validator.__get__ BurgerRecipe.eggs (Some o)
       = Ok (Validator.GotValue a5)
    /\ Validator.__get__ BurgerRecipe.sauce (Some o)
       = Ok (Validator.GotValue a6).
Proof.
  intros Hp. unfold field_checks in Hp.
  repeat (apply Forall_cons in Hp as [?Hv Hp]). unfold passes in *.
  simpl in *.
  eexists. split.
  - rewrite new_outcome. unfold BurgerRecipe.__init__, bind.
    rewrite (set_ok BurgerRecipe.buns a1 _ "_buns") by done.
    rewrite (set_ok BurgerRecipe.cheese a2 _ "_cheese") by done.
    rewrite (set_ok BurgerRecipe.tomatoes a3 _ "_tomatoes") by done.
    rewrite (set_ok BurgerRecipe.cutlets a4 _ "_cutlets") by done.
    rewrite (set_ok BurgerRecipe.eggs a5 _ "_eggs") by done.
    rewrite (set_ok BurgerRecipe.sauce a6 _ "_sauce") by done.
    reflexivity.
  - unfold Validator.__get__, getattr, stored. simpl.
    repeat split; by simplify_map_eq.
Qed.

(** C9.  [BurgerRecipe(2, 1, 1, 1, 1, "ketchup")] returns an instance,
    and each of its six fields reads back the argument given for it. *)
Theorem new_round_trip :
  exists o,
    BurgerRecipe.new (VInt 2) (VInt 1) (VInt 1) (VInt 1) (VInt 1)
      (VStr "ketchup") = Ok o
    /\ Validator.__get__ BurgerRecipe.buns (Some o)
       = Ok (Validator.GotValue (VInt 2))
    /\ Validator.__get__ BurgerRecipe.cheese (Some o)
       = Ok (Validator.GotValue (VInt 1))
    /\ Validator.__get__ BurgerRecipe.tomatoes (Some o)
       = Ok (Validator.GotValue (VInt 1))
    /\ Validator.__get__ BurgerRecipe.cutlets (Some o)
       = Ok (Validator.GotValue (VInt 1))
    /\ Validator.__get__ BurgerRecipe.eggs (Some o)
       = Ok (Validator.GotValue (VInt 1))
    /\ Validator.__get__ BurgerRecipe.sauce (Some o)
       = Ok (Validator.GotValue (VStr "ketchup")).
Proof. apply new_reads_back. repeat constructor. Qed.

(** * Further properties of the rules *)








(** X1.  A descriptor of the base class [Validator] accepts nothing:
    every assignment through it raises [NotImplementedError], whether the
    descriptor has a name or not, and no sequence of such assignments
    changes the instance. *)
Theorem base_class_stores_nothing (name : option string) :
  (forall v o,
     Validator.__set__ (Descriptor IsValidator name) v o
     = (Raise not_implemented, o)) /\
  (forall ws o,
     Forall (fun w : descriptor * value => cls w.1 = IsValidator) ws ->
     set_all ws o = o).
Proof.
  split.
  - intros v o. by apply set_raise.
  - intros ws o Hws. revert o.
    induction Hws as [|[d v] ws Hd _ IH]; intros o; [done|].
    simpl in *. rewrite (set_raise d v o not_implemented); [apply IH|].
    unfold Validator.self_validate. by rewrite Hd.
Qed.

Lemma base_class_stores_nothing_witness :
  set_all [(Descriptor IsValidator (Some "_x"), VInt 1);
           (Descriptor IsValidator None, VStr "ketchup")] two_cutlets
  = two_cutlets.
Proof.
  apply (proj2 (base_class_stores_nothing None)). by repeat constructor.
Defined.

(** X2.  A descriptor that [__set_name__] has not named (one created
    outside a class body) stores nothing: an assignment raises the failure
    of the rule when the check fails, and [AttributeError] when it passes;
    the instance is left as it was either way.  A read on an instance
    raises [AttributeError], a read on the class returns the descriptor. *)
Theorem unnamed_descriptor (d : descriptor) (v : value) (o : object) :
  protected_name d = None ->
  (Validator.__set__ d v o).2 = o /\
  (forall e, Validator.self_validate d v = Raise e ->
     (Validator.__set__ d v o).1 = Raise e) /\
  (Validator.self_validate d v = Ok tt ->
     exists e, (Validator.__set__ d v o).1 = Raise e
               /\ exn_type e = AttributeError) /\
  (exists e, Validator.__get__ d (Some o) = Raise e
             /\ exn_type e = AttributeError) /\
  Validator.__get__ d None = Ok (Validator.GotSelf d).
Proof.
  intros Hd. split; [|split; [|split; [|split]]].
  - destruct (set_cases d v o) as [[e ->] | (p & Hp & _)]; [done|congruence].
  - intros e He. by rewrite (set_raise d v o e He).
  - intros Hv. rewrite (set_unbound d v o Hv Hd). by eexists.
  - unfold Validator.__get__, get_protected_name. rewrite Hd. by eexists.
  - reflexivity.
Qed.

Lemma unnamed_descriptor_witness :
  (Validator.__set__ (Number.__init__ 2 3) (VInt 2) BurgerRecipe.fresh).2
  = BurgerRecipe.fresh
  /\ exists e,
       (Validator.__set__ (Number.__init__ 2 3) (VInt 2) BurgerRecipe.fresh).1
       = Raise e /\ exn_type e = AttributeError.
Proof.
  pose proof (unnamed_descriptor (Number.__init__ 2 3) (VInt 2)
                BurgerRecipe.fresh eq_refl) as (H1 & _ & H3 & _).
  split; [exact H1 | apply H3; reflexivity].
Defined.





(** X5.  [Number.__init__] does not compare its bounds: with
    [max_value < min_value] the descriptor is created all the same and
    rejects every value, an [int] instance with [ValueError] and any other
    value with [TypeError]. *)
Theorem number_empty_range (min_value max_value : Z) (v : value) :
  max_value < min_value ->
  exists e, Validator.self_validate (Number.__init__ min_value max_value) v
            = Raise e
    /\ exn_type e = if isinstance_int v then ValueError else TypeError.
Proof.
  intros Hlt. unfold Validator.self_validate. simpl.
  destruct (isinstance_int v) eqn:Hi.
  - destruct (isinstance_int_value v Hi) as [n Hn]. eexists. split.
    + apply number_out_of_range with n; [done | lia].
    + reflexivity.
  - eexists. split; [by apply number_not_int | reflexivity].
Qed.

Lemma number_empty_range_witness :
  exists e, Validator.self_validate (Number.__init__ 3 2) (VInt 2) = Raise e
    /\ exn_type e = ValueError.
Proof. apply (number_empty_range 3 2 (VInt 2)). lia. Defined.

(** X6.  Widening the range of a [Number] never turns an accepted value
    into a rejected one. *)
Theorem number_wider_range (min_value max_value min' max' : Z) (v : value) :
  min' <= min_value -> max_value <= max' ->
  Number.validate min_value max_value v = Ok tt ->
  Number.validate min' max' v = Ok tt.
Proof.
  intros Hmin Hmax. unfold Number.validate.
  destruct (isinstance_int v); simpl; [|done].
  destruct (Z.leb_spec min_value (default 0 (int_value v))),
           (Z.leb_spec (default 0 (int_value v)) max_value); simpl; try done.
  intros _.
  destruct (Z.leb_spec min' (default 0 (int_value v))),
           (Z.leb_spec (default 0 (int_value v)) max'); simpl; [done | lia..].
Qed.

Lemma number_wider_range_witness : Number.validate 0 3 (VInt 2) = Ok tt.
Proof.
  apply (number_wider_range 0 2 0 3 (VInt 2)); [lia | lia | reflexivity].
Defined.

(** * Further properties of assignment *)

(** X7.  Assigning a field twice: when both values pass, the instance is
    the one the second assignment alone gives (the last write wins); when
    the second value is rejected, the instance is the one the first
    assignment alone gives. *)
Theorem set_twice (d : descriptor) (p : string) (v1 v2 : value) (o : object) :
  protected_name d = Some p ->
  Validator.self_validate d v1 = Ok tt ->
  (Validator.self_validate d v2 = Ok tt ->
     set_all [(d, v1); (d, v2)] o = set_all [(d, v2)] o) /\
  (forall e, Validator.self_validate d v2 = Raise e ->
     set_all [(d, v1); (d, v2)] o = set_all [(d, v1)] o
     /\ Validator.__get__ d (Some (set_all [(d, v1); (d, v2)] o))
        = Ok (Validator.GotValue v1)).
Proof.
  intros Hp H1. unfold set_all. simpl. rewrite (set_ok d v1 o p H1 Hp).
  split.
  - intros H2. rewrite !(set_ok d v2 _ p H2 Hp). unfold stored. simpl.
    by rewrite insert_insert_eq.
  - intros e H2. rewrite (set_raise d v2 _ e H2). simpl. split; [done|].
    apply get_stored with p; [done|]. simpl. apply lookup_insert_eq.
Qed.

Lemma set_twice_witness :
  set_all [(BurgerRecipe.eggs, VInt 1); (BurgerRecipe.eggs, VInt 2)]
    BurgerRecipe.fresh
  = set_all [(BurgerRecipe.eggs, VInt 2)] BurgerRecipe.fresh.
Proof.
  apply (proj1 (set_twice BurgerRecipe.eggs "_eggs" (VInt 1) (VInt 2)
                  BurgerRecipe.fresh eq_refl eq_refl)).
  reflexivity.
Defined.

(** X8.  Assignments to two fields with different backing names do not
    interfere: the instance after both is the same in either order,
    whichever of the two values are accepted. *)
Theorem set_order_irrelevant (d1 d2 : descriptor) (p q : string)
    (v1 v2 : value) (o : object) :
  protected_name d1 = Some p -> protected_name d2 = Some q -> p <> q ->
  set_all [(d1, v1); (d2, v2)] o = set_all [(d2, v2); (d1, v1)] o.
Proof.
  intros Hp Hq Hpq. unfold set_all. simpl.
  destruct (Validator.self_validate d1 v1) as [[]|e1] eqn:H1,
           (Validator.self_validate d2 v2) as [[]|e2] eqn:H2.
  - rewrite (set_ok d1 v1 o p H1 Hp), (set_ok d2 v2 o q H2 Hq). simpl.
    rewrite (set_ok d2 v2 _ q H2 Hq), (set_ok d1 v1 _ p H1 Hp).
    unfold stored. simpl. f_equal. by apply insert_insert_ne.
  - rewrite (set_ok d1 v1 o p H1 Hp), (set_raise d2 v2 o e2 H2). simpl.
    by rewrite (set_raise d2 v2 _ e2 H2), (set_ok d1 v1 o p H1 Hp).
  - rewrite (set_raise d1 v1 o e1 H1), (set_ok d2 v2 o q H2 Hq). simpl.
    by rewrite (set_ok d2 v2 o q H2 Hq), (set_raise d1 v1 _ e1 H1).
  - rewrite (set_raise d1 v1 o e1 H1), (set_raise d2 v2 o e2 H2). simpl.
    by rewrite (set_raise d2 v2 o e2 H2), (set_raise d1 v1 o e1 H1).
Qed.

Lemma set_order_irrelevant_witness :
  set_all [(BurgerRecipe.buns, VInt 3); (BurgerRecipe.sauce, VStr "mayo")]
    two_cutlets
  = set_all [(BurgerRecipe.sauce, VStr "mayo"); (BurgerRecipe.buns, VInt 3)]
      two_cutlets.
Proof.
  apply (set_order_irrelevant BurgerRecipe.buns BurgerRecipe.sauce
           "_buns" "_sauce"); [reflexivity | reflexivity | discriminate].
Defined.

(** * Further properties of construction *)

Lemma number_ok_iff (min_value max_value n : Z) :
  Number.validate min_value max_value (VInt n) = Ok tt
  <-> min_value <= n <= max_value.
Proof.
  unfold Number.validate. simpl.
  destruct (Z.leb_spec min_value n), (Z.leb_spec n max_value); simpl;
    split; first [done | lia].
Qed.

Lemma oneof_str_ok_iff (options : list string) (s : string) :
  OneOf.validate options (VStr s) = Ok tt <-> s ∈ options.
Proof.
  rewrite oneof_ok_iff, py_in_member. unfold member. split.
  - by intros (s' & [= <-] & Hin).
  - intros Hin. by exists s.
Qed.

Lemma first_failure_None (ws : list (descriptor * value)) :
  first_failure ws = None <-> Forall passes ws.
Proof.
  induction ws as [|w ws IH]; simpl.
  - split; [constructor | done].
  - rewrite Forall_cons. unfold passes at 1.
    destruct (Validator.self_validate w.1 w.2) as [[]|e]; [|split].
    + rewrite IH. tauto.
    + done.
    + by intros [? _].
Qed.


Lemma new_first_failure (a1 a2 a3 a4 a5 a6 : value) :
  match first_failure (field_checks a1 a2 a3 a4 a5 a6) with
  | Some e => BurgerRecipe.new a1 a2 a3 a4 a5 a6 = Raise e
  | None => exists o, BurgerRecipe.new a1 a2 a3 a4 a5 a6 = Ok o
  end.
Proof.
  rewrite new_outcome.
  pose proof (assign_each_outcome _ BurgerRecipe.fresh
                (field_checks_bound a1 a2 a3 a4 a5 a6)) as H.
  rewrite <- init_assign_each in H. rewrite H.
  destruct (first_failure _); [done | by eexists].
Qed.

Lemma new_ok_iff (a1 a2 a3 a4 a5 a6 : value) :
  (exists o, BurgerRecipe.new a1 a2 a3 a4 a5 a6 = Ok o)
  <-> Forall passes (field_checks a1 a2 a3 a4 a5 a6).
Proof.
  rewrite <- first_failure_None.
  pose proof (new_first_failure a1 a2 a3 a4 a5 a6) as H.
  destruct (first_failure _) as [e|]; split; try done.
  intros [o Ho]. congruence.
Qed.

(** The instance a successful construction returns. *)
Lemma new_ok_state (a1 a2 a3 a4 a5 a6 : value) (o : object) :
  BurgerRecipe.new a1 a2 a3 a4 a5 a6 = Ok o ->
  Forall passes (field_checks a1 a2 a3 a4 a5 a6)
  /\ o = Object "BurgerRecipe"
           (<["_sauce" := a6]> (<["_eggs" := a5]> (<["_cutlets" := a4]>
              (<["_tomatoes" := a3]> (<["_cheese" := a2]>
                 (<["_buns" := a1]> ∅)))))).
Proof.
  intros Ho.
  assert (Forall passes (field_checks a1 a2 a3 a4 a5 a6)) as Hp.
  { apply new_ok_iff. by exists o. }
  split; [done|]. unfold field_checks in Hp.
  repeat (apply Forall_cons in Hp as [?Hv Hp]). unfold passes in *.
  simpl in *.
  rewrite new_outcome in Ho. unfold BurgerRecipe.__init__, bind in Ho.
  rewrite (set_ok BurgerRecipe.buns a1 _ "_buns") in Ho by done.
  rewrite (set_ok BurgerRecipe.cheese a2 _ "_cheese") in Ho by done.
  rewrite (set_ok BurgerRecipe.tomatoes a3 _ "_tomatoes") in Ho by done.
  rewrite (set_ok BurgerRecipe.cutlets a4 _ "_cutlets") in Ho by done.
  rewrite (set_ok BurgerRecipe.eggs a5 _ "_eggs") in Ho by done.
  rewrite (set_ok BurgerRecipe.sauce a6 _ "_sauce") in Ho by done.
  simpl in Ho. by injection Ho as <-.
Qed.

(** X9.  Construction from five integers and a string succeeds exactly
    when every quantity lies in the range declared for its field (buns
    2..3, cheese 0..2, tomatoes 0..3, cutlets 1..3, eggs 0..2) and the
    sauce is "ketchup", "mayo" or "burger". *)
Theorem new_accepts_iff (b c t k e : Z) (s : string) :
  (exists o, BurgerRecipe.new (VInt b) (VInt c) (VInt t) (VInt k) (VInt e)
               (VStr s) = Ok o)
  <-> 2 <= b <= 3 /\ 0 <= c <= 2 /\ 0 <= t <= 3 /\ 1 <= k <= 3
      /\ 0 <= e <= 2 /\ s ∈ ["ketchup"; "mayo"; "burger"].
Proof.
  rewrite new_ok_iff. unfold field_checks.
  rewrite !Forall_cons, Forall_nil. unfold passes, Validator.self_validate.
  simpl. rewrite !number_ok_iff, oneof_str_ok_iff. tauto.
Qed.

(** X10.  The instance a successful construction returns holds the six
    backing names "_buns", "_cheese", "_tomatoes", "_cutlets", "_eggs" and
    "_sauce" and no other attribute. *)
Theorem new_instance_names (a1 a2 a3 a4 a5 a6 : value) (o : object)
    (name : string) :
  BurgerRecipe.new a1 a2 a3 a4 a5 a6 = Ok o ->
  type_name o = "BurgerRecipe"
  /\ (is_Some (attrs o !! name)
      <-> name ∈ ["_buns"; "_cheese"; "_tomatoes"; "_cutlets"; "_eggs";
                  "_sauce"])
  /\ size (attrs o) = 6%nat.
Proof.
  intros [_ ->]%new_ok_state. simpl. split; [done|]. split.
  - rewrite !lookup_insert_is_Some', lookup_empty, !elem_of_cons, elem_of_nil.
    pose proof (@is_Some_None value) as Hn. intuition congruence.
  - by vm_compute.
Qed.

Lemma new_instance_names_witness :
  type_name (set_all (field_checks (VInt 2) (VInt 1) (VInt 1) (VInt 1)
                        (VInt 1) (VStr "ketchup")) BurgerRecipe.fresh)
  = "BurgerRecipe"
  /\ (is_Some (attrs (set_all (field_checks (VInt 2) (VInt 1) (VInt 1)
                                 (VInt 1) (VInt 1) (VStr "ketchup"))
                              BurgerRecipe.fresh) !! "buns")
      <-> "buns" ∈ ["_buns"; "_cheese"; "_tomatoes"; "_cutlets"; "_eggs";
                    "_sauce"])
  /\ size (attrs (set_all (field_checks (VInt 2) (VInt 1) (VInt 1) (VInt 1)
                             (VInt 1) (VStr "ketchup")) BurgerRecipe.fresh))
     = 6%nat.
Proof.
  apply (new_instance_names (VInt 2) (VInt 1) (VInt 1) (VInt 1) (VInt 1)
           (VStr "ketchup")).
  reflexivity.
Defined.



Lemma field_checks_fields (a1 a2 a3 a4 a5 a6 : value) :
  through_fields (field_checks a1 a2 a3 a4 a5 a6).
Proof.
  unfold through_fields, field_checks, recipe_fields.
  repeat constructor; simpl; rewrite !elem_of_cons; tauto.
Qed.



(** * Invariants of a recipe *)

Lemma set_keeps_valid (f : descriptor) (v : value) (o : object) :
  f ∈ recipe_fields -> valid_recipe o ->
  valid_recipe (Validator.__set__ f v o).2.
Proof.
  intros Hf Ho.
  destruct (set_cases f v o) as [[e ->] | (p & Hp & Hv & ->)]; [done|].
  intros g q u Hg Hq. simpl. destruct (decide (p = q)) as [<-|Hne].
  - rewrite lookup_insert_eq. intros [= <-].
    assert (g = f) as -> by (apply recipe_field_names_inj; congruence).
    done.
  - rewrite lookup_insert_ne by done. by apply Ho.
Qed.

Lemma set_all_keeps_valid (ws : list (descriptor * value)) (o : object) :
  through_fields ws -> valid_recipe o -> valid_recipe (set_all ws o).
Proof.
  intros Hws. revert o. induction Hws as [|[f v] ws Hf _ IH]; intros o Ho.
  - done.
  - simpl. apply IH. by apply set_keeps_valid.
Qed.

Lemma set_all_keeps_set (ws : list (descriptor * value)) (o : object)
    (p : string) :
  is_Some (attrs o !! p) -> is_Some (attrs (set_all ws o) !! p).
Proof.
  revert o. induction ws as [|[d v] ws IH]; intros o Ho; [done|].
  simpl. apply IH.
  destruct (set_cases d v o) as [[e ->] | (q & _ & _ & ->)]; [done|].
  simpl. rewrite lookup_insert_is_Some'. by right.
Qed.

Lemma fresh_valid : valid_recipe BurgerRecipe.fresh.
Proof. intros f p v _ _. simpl. by rewrite lookup_empty. Qed.

Lemma new_is_set_all (a1 a2 a3 a4 a5 a6 : value) (o : object) :
  BurgerRecipe.new a1 a2 a3 a4 a5 a6 = Ok o ->
  o = set_all (field_checks a1 a2 a3 a4 a5 a6) BurgerRecipe.fresh.
Proof.
  intros [Hp ->]%new_ok_state. unfold field_checks in *.
  repeat (apply Forall_cons in Hp as [?Hv Hp]). unfold passes in *.
  simpl in *. unfold set_all. simpl.
  rewrite (set_ok BurgerRecipe.buns a1 _ "_buns") by done.
  rewrite (set_ok BurgerRecipe.cheese a2 _ "_cheese") by done.
  rewrite (set_ok BurgerRecipe.tomatoes a3 _ "_tomatoes") by done.
  rewrite (set_ok BurgerRecipe.cutlets a4 _ "_cutlets") by done.
  rewrite (set_ok BurgerRecipe.eggs a5 _ "_eggs") by done.
  rewrite (set_ok BurgerRecipe.sauce a6 _ "_sauce") by done.
  reflexivity.
Qed.

(** X12.  Assignments through the descriptors keep the recipe valid: if
    every stored field satisfies its rule, it still does after any
    sequence of assignments to the six fields, accepted or rejected.  A
    new instance, with nothing stored, is valid. *)
Theorem valid_recipe_invariant (ws : list (descriptor * value)) (o : object) :
  valid_recipe BurgerRecipe.fresh /\
  (through_fields ws -> valid_recipe o -> valid_recipe (set_all ws o)).
Proof. split; [apply fresh_valid | apply set_all_keeps_valid]. Qed.

Lemma valid_recipe_invariant_witness :
  valid_recipe (set_all [(BurgerRecipe.buns, VInt 9);
                         (BurgerRecipe.sauce, VStr "mayo")]
                        BurgerRecipe.fresh).
Proof.
  apply (proj2 (valid_recipe_invariant
                  [(BurgerRecipe.buns, VInt 9);
                   (BurgerRecipe.sauce, VStr "mayo")] BurgerRecipe.fresh)).
  - unfold through_fields, recipe_fields.
    repeat constructor; simpl; rewrite !elem_of_cons; tauto.
  - apply (proj1 (valid_recipe_invariant [] BurgerRecipe.fresh)).
Defined.

(** X13.  Once a recipe has been constructed, each of its six fields can
    always be read, and what it reads satisfies the rule of the field,
    after any sequence of later assignments to the fields, accepted or
    rejected: a read never raises [AttributeError] and never shows a
    rejected value. *)
Theorem recipe_stays_readable (a1 a2 a3 a4 a5 a6 : value) (o : object)
    (ws : list (descriptor * value)) (f : descriptor) :
  BurgerRecipe.new a1 a2 a3 a4 a5 a6 = Ok o ->
  through_fields ws -> f ∈ recipe_fields ->
  exists v, Validator.__get__ f (Some (set_all ws o))
            = Ok (Validator.GotValue v)
    /\ Validator.self_validate f v = Ok tt.
Proof.
  intros Ho Hws Hf. destruct (recipe_field_bound f Hf) as [p Hp].
  assert (is_Some (attrs (set_all ws o) !! p)) as [v Hv].
  { apply set_all_keeps_set.
    apply new_ok_state in Ho as [_ ->]. simpl.
    revert Hp. unfold recipe_fields in Hf.
    rewrite !elem_of_cons, elem_of_nil in Hf.
    destruct Hf as [-> | [-> | [-> | [-> | [-> | [-> | []]]]]]];
      intros [= <-]; by simplify_map_eq. }
  exists v. split; [by apply get_stored with p|].
  assert (valid_recipe (set_all ws o)) as Hvalid.
  { apply set_all_keeps_valid; [done|].
    rewrite (new_is_set_all _ _ _ _ _ _ o Ho).
    apply set_all_keeps_valid; [apply field_checks_fields | apply fresh_valid]. }
  by apply (Hvalid f p v).
Qed.

Lemma recipe_stays_readable_witness :
  exists v,
    Validator.__get__ BurgerRecipe.cutlets
      (Some (set_all [(BurgerRecipe.cutlets, VInt 4);
                      (BurgerRecipe.eggs, VInt 2)]
               (set_all (field_checks (VInt 2) (VInt 1) (VInt 1) (VInt 1)
                           (VInt 1) (VStr "ketchup")) BurgerRecipe.fresh)))
    = Ok (Validator.GotValue v)
    /\ Validator.self_validate BurgerRecipe.cutlets v = Ok tt.
Proof.
  apply (recipe_stays_readable (VInt 2) (VInt 1) (VInt 1) (VInt 1) (VInt 1)
           (VStr "ketchup")).
  - reflexivity.
  - unfold through_fields, recipe_fields.
    repeat constructor; simpl; rewrite !elem_of_cons; tauto.
  - unfold recipe_fields. rewrite !elem_of_cons. tauto.
Defined.
